(** * dask_compat: platform flags and the optional-dependency guard

    A shallow embedding of [src/dask_compat.py] and the properties its
    specification states about it.

    Conventions of the embedding.
    - A Python [str] is a Rocq [string]; each character stands for the code
      point with the same number (0..255).
    - A Python [dict] with string keys is a [gmap string _]; the set literal
      of the policy assertion is a [gset string].
    - Exceptions, warnings and the calls into the host runtime are explicit:
      a computation of type [M A] yields the trace of its interactions with
      the runtime together with either a value or the exception it raised.
    - [packaging.version] and the import machinery are not part of the
      module; the first is an interface ([PackagingVersion]), the second a
      record describing the runtime the function is called in ([runtime]). *)

From Stdlib Require Import Ascii String.
From stdpp Require Import base option list strings pretty gmap.

Local Open Scope string_scope.
Local Open Scope list_scope.

(** ** Python strings *)

Module PyStr.

(** [str.isspace] on one character, for code points below 256:
    TAB..CR, FS..US, SPACE, NEL and NBSP. *)
Definition isspace (c : ascii) : bool :=
  let n := nat_of_ascii c in
  (Nat.leb 9 n && Nat.leb n 13) || (Nat.leb 28 n && Nat.leb n 32)
  || Nat.eqb n 133 || Nat.eqb n 160.

(** The list accumulated for the current token is kept reversed. *)
Definition token (rev_chars : list ascii) : string :=
  string_of_list_ascii (rev rev_chars).

Definition flush (rev_chars : list ascii) (rest : list string) : list string :=
  match rev_chars with
  | [] => rest
  | _ :: _ => token rev_chars :: rest
  end.

(** [s.split()]: runs of whitespace separate the tokens, leading and
    trailing whitespace is dropped, no token is empty. *)
Fixpoint split_ws_from (cur : list ascii) (s : string) : list string :=
  match s with
  | EmptyString => flush cur []
  | String c s' =>
      if isspace c then flush cur (split_ws_from [] s')
      else split_ws_from (c :: cur) s'
  end.

Definition split_ws (s : string) : list string := split_ws_from [] s.

(** [s.split(sep)] for a one-character separator: every occurrence of
    the separator cuts, empty segments are kept. *)
Fixpoint split_on_from (sep : ascii) (cur : list ascii) (s : string) : list string :=
  match s with
  | EmptyString => [token cur]
  | String c s' =>
      if Ascii.eqb c sep then token cur :: split_on_from sep [] s'
      else split_on_from sep (c :: cur) s'
  end.

Definition split_on (sep : ascii) (s : string) : list string :=
  split_on_from sep [] s.

(** [sub in s]. *)
Fixpoint contains (s sub : string) : bool :=
  String.prefix sub s ||
  match s with
  | EmptyString => false
  | String _ s' => contains s' sub
  end.

(** Strings made of whitespace only, and strings free of whitespace. *)
Fixpoint all_space (s : string) : bool :=
  match s with
  | EmptyString => true
  | String c s' => isspace c && all_space s'
  end.

Fixpoint no_space (s : string) : bool :=
  match s with
  | EmptyString => true
  | String c s' => negb (isspace c) && no_space s'
  end.

(** The string is empty or begins with a whitespace character. *)
Definition ends_token (s : string) : bool :=
  match s with
  | EmptyString => true
  | String c _ => isspace c
  end.

(** Truth value of a string, and of an optional string ([None] is false). *)
Definition truthy (s : string) : bool :=
  match s with EmptyString => false | String _ _ => true end.

Definition truthy_opt (o : option string) : bool :=
  match o with Some s => truthy s | None => false end.

(** [a or b] on optional strings: [a] when it is truthy, else [b]. *)
Definition or_ (a b : option string) : option string :=
  if truthy_opt a then a else b.

End PyStr.

(** ** Platform flags (lines 17-20)

    [sys.platform] is an input of the module's initialisation; the four
    constants are functions of it. *)

Definition EMSCRIPTEN (platform : string) : bool := String.eqb platform "emscripten".
Definition LINUX (platform : string) : bool := String.eqb platform "linux".
Definition MACOS (platform : string) : bool := String.eqb platform "darwin".
Definition WINDOWS (platform : string) : bool := String.eqb platform "win32".

Definition platform_flags (platform : string) : list bool :=
  [EMSCRIPTEN platform; LINUX platform; MACOS platform; WINDOWS platform].

Definition flags_set (platform : string) : nat :=
  length (filter (fun b => b = true) (platform_flags platform)).

Definition recognized_platforms : list string :=
  ["emscripten"; "linux"; "darwin"; "win32"].

(** ** The two tables (lines 31-44) *)

Definition VERSIONS : gmap string string :=
  <["numpy" := "1.21.0"]> (
  <["pandas" := "2.0.0"]> (
  <["bokeh" := "2.4.2"]> (
  <["jinja2" := "2.10.3"]> (
  <["pyarrow" := "7.0.0"]> (
  <["lz4" := "4.3.2"]> ∅))))).

Definition INSTALL_MAPPING : gmap string string :=
  <["sqlalchemy" := "SQLAlchemy"]> (
  <["tables" := "pytables"]> ∅).

(** [d.get(key, default)]. *)
Definition dict_get (d : gmap string string) (key default : string) : string :=
  match d !! key with
  | Some v => v
  | None => default
  end.

(** ** Exceptions, trace and the computation monad *)

(** The exception classes the module raises or catches.
    [ModuleNotFoundError] is the subclass of [ImportError] the import
    machinery raises for an absent module; [OtherError] stands for every
    class that is unrelated to the ones named here. *)
Inductive exc_class : Type :=
  | AssertionError
  | ImportError
  | ModuleNotFoundError
  | InvalidVersion
  | IndexError
  | OtherError (cls : string).

Record exn : Type := Exn { exn_class : exc_class; exn_msg : string }.

(** [isinstance(e, ImportError)] and [isinstance(e, InvalidVersion)]. *)
Definition is_ImportError (e : exn) : bool :=
  match exn_class e with
  | ImportError | ModuleNotFoundError => true
  | _ => false
  end.

Definition is_InvalidVersion (e : exn) : bool :=
  match exn_class e with
  | InvalidVersion => true
  | _ => false
  end.

Inductive warning_category : Type := UserWarning | DeprecationWarning.

(** What a call does to the runtime, in order: it asks for the import of a
    module, it reads the [__version__] attribute of a module, it emits a
    warning. *)
Inductive event : Type :=
  | EvImport (name : string)
  | EvGetattrVersion (module_name : string)
  | EvWarn (category : warning_category) (message : string).

Inductive outcome (A : Type) : Type :=
  | Returned (a : A)
  | Raised (e : exn).
Arguments Returned {A} a.
Arguments Raised {A} e.

Definition M (A : Type) : Type := (list event * outcome A)%type.

Definition trace {A} (m : M A) : list event := fst m.
Definition result {A} (m : M A) : outcome A := snd m.

#[export] Instance M_ret : MRet M := fun A a => ([], Returned a).

#[export] Instance M_bind : MBind M := fun A B f m =>
  match m with
  | (tr, Returned a) => let '(tr', r) := f a in (tr ++ tr', r)
  | (tr, Raised e) => (tr, Raised e)
  end.

Definition raise {A} (e : exn) : M A := ([], Raised e).
Definition tell (ev : event) : M unit := ([ev], Returned tt).

(** [try: m  except C as e: ...]: an exception of [m] that the clause
    catches becomes a value handed to the handler, any other propagates. *)
Definition try_except {A} (catches : exn -> bool) (m : M A) : M (exn + A) :=
  match m with
  | (tr, Returned a) => (tr, Returned (inr a))
  | (tr, Raised e) => if catches e then (tr, Returned (inl e)) else (tr, Raised e)
  end.

(** [assert cond, msg] (the interpreter runs without [-O]). *)
Definition py_assert (cond : bool) (msg : string) : M unit :=
  if cond then mret tt else raise (Exn AssertionError msg).

(** [l[i]]. *)
Definition getitem (l : list string) (i : nat) : M string :=
  match l !! i with
  | Some x => mret x
  | None => raise (Exn IndexError "list index out of range")
  end.

(** [warnings.warn(message, category)] under the default filters: the
    warning is reported and execution goes on. *)
Definition warnings_warn (message : string) (category : warning_category) : M unit :=
  tell (EvWarn category message).

(** ** The host runtime *)

(** A loaded module, as far as the guard looks at it. An absent
    [__version__] attribute is [None]. *)
Record ModuleType : Type := Module_ { __name__ : string; __version__ : option string }.

Inductive import_result : Type :=
  | Imported (m : ModuleType)
  | ImportRaises (e : exn).

(** [import_module]: what [importlib.import_module] does for each name;
    [sys_modules]: the content of [sys.modules] once the import is done. *)
Record runtime : Type := Runtime {
  import_module : string -> import_result;
  sys_modules : gmap string ModuleType
}.

Definition importlib_import_module (rt : runtime) (name : string) : M ModuleType :=
  tell (EvImport name);;
  match import_module rt name with
  | Imported m => mret m
  | ImportRaises e => raise e
  end.

(** ** The version library

    [packaging.version.Version] as the guard uses it: the constructor,
    which raises [InvalidVersion] on a string it cannot parse, the order
    [<] and the conversion to [str]. *)
Class PackagingVersion : Type := {
  version : Type;
  parse_version : string -> option version;
  version_lt : version -> version -> bool;
  version_str : version -> string;
  invalid_version_msg : string -> string
}.

Definition Version `{PackagingVersion} (s : string) : M version :=
  match parse_version s with
  | Some v => mret v
  | None => raise (Exn InvalidVersion (invalid_version_msg s))
  end.

(** ** get_version (lines 46-53) *)

Definition undetermined_msg (module_name : string) : string :=
  "Cannot determine the version for the module '" +:+ module_name +:+ "'.".

Definition get_version (module : ModuleType) : M string :=
  tell (EvGetattrVersion (__name__ module));;
  match __version__ module with
  | None => raise (Exn ImportError (undetermined_msg (__name__ module)))
  | Some version =>
      if negb (PyStr.truthy version)
      then raise (Exn ImportError (undetermined_msg (__name__ module)))
      else
        version ← (if String.eqb (__name__ module) "psycopg2"
                   then getitem (PyStr.split_ws version) 0
                   else mret version);
        mret version
  end.

(** ** import_optional_dependency (lines 55-125) *)

Definition policies : gset string := {["warn"; "raise"; "ignore"]}.

Definition missing_msg (package_name extra : string) : string :=
  "Missing optional dependency '" +:+ package_name +:+ "'. " +:+ extra
  +:+ " Use pip or conda to install " +:+ package_name +:+ ".".

Definition invalid_msg (parent : string) : string :=
  "Invalid version for the module '" +:+ parent +:+ "'.".

Definition version_msg `{PackagingVersion} (parent : string)
    (installed_version required_version : version) : string :=
  "'" +:+ parent +:+ "' version '" +:+ version_str installed_version
  +:+ "' is installed; Dask requires version '"
  +:+ version_str required_version +:+ "' or newer.".

(** Lines 106-125: what the function does once a minimum version applies
    (the branch [if minimum_version:] is taken), down to the final
    [return module]. *)
Definition enforce_minimum `{PackagingVersion} (errors parent : string)
    (module module_to_check : ModuleType) (minimum_version : string)
    : M (option ModuleType) :=
  parsed ← try_except is_InvalidVersion
             (v ← get_version module_to_check; Version v);
  match parsed with
  | inl _ => raise (Exn ImportError (invalid_msg parent))
  | inr installed_version =>
      required_version ← Version minimum_version;
      if version_lt installed_version required_version then
        let version_msg :=
          version_msg parent installed_version required_version in
        if String.eqb errors "warn" then
          warnings_warn version_msg UserWarning;;
          mret None
        else if String.eqb errors "raise" then
          raise (Exn ImportError version_msg)
        else mret None
      else mret (Some module)
  end.

Definition import_optional_dependency `{PackagingVersion} (rt : runtime)
    (name extra : string) (min_version : option string) (errors : string)
    : M (option ModuleType) :=
  (* line 84 *)
  py_assert (bool_decide (errors ∈ policies))
            "Invalid error handling strategy specified.";;
  (* lines 86-90 *)
  let package_name := dict_get INSTALL_MAPPING name name in
  let msg := missing_msg package_name extra in
  (* lines 92-97 *)
  attempt ← try_except is_ImportError (importlib_import_module rt name);
  match attempt with
  | inl err =>
      if String.eqb errors "raise" then raise (Exn ImportError msg)
      else mret None
  | inr module =>
      (* lines 100-101 *)
      parent ← getitem (PyStr.split_on "." name) 0;
      let module_to_check := default module (sys_modules rt !! parent) in
      (* lines 104-105 *)
      let minimum_version := PyStr.or_ min_version (VERSIONS !! parent) in
      match minimum_version with
      | Some minimum_version =>
          if PyStr.truthy minimum_version
          then enforce_minimum errors parent module module_to_check
                               minimum_version
          else mret (Some module) (* line 125 *)
      | None => mret (Some module) (* line 125 *)
      end
  end.

(** ** Names the statements use *)

(** [name.split(".")[0]]: [str.split] with a separator never returns an
    empty list ([getitem_split_on] below), so the index is always there. *)
Definition top_level (name : string) : string :=
  default "" (PyStr.split_on "." name !! 0).

(** The module whose version is checked and the minimum that applies to a
    call, as lines 100-104 compute them. *)
Definition module_to_check (rt : runtime) (name : string) (module : ModuleType) : ModuleType :=
  default module (sys_modules rt !! top_level name).

Definition minimum_version (name : string) (min_version : option string) : option string :=
  PyStr.or_ min_version (VERSIONS !! top_level name).

(** ** A version library to run the guard with

    The release-segment fragment of the version syntax: one or more
    decimal numbers separated by dots, compared number by number with
    missing numbers read as zero. It serves the worked examples; the
    theorems hold for every [PackagingVersion]. *)

Module ReleaseVersion.

Definition digit (c : ascii) : option N :=
  let n := N_of_ascii c in
  if (48 <=? n)%N && (n <=? 57)%N then Some (n - 48)%N else None.

Fixpoint number_from (acc : N) (s : string) : option N :=
  match s with
  | EmptyString => Some acc
  | String c s' =>
      match digit c with
      | Some d => number_from (10 * acc + d)%N s'
      | None => None
      end
  end.

Definition number (s : string) : option N :=
  match s with
  | EmptyString => None
  | String _ _ => number_from 0%N s
  end.

Definition parse (s : string) : option (list N) :=
  mapM number (PyStr.split_on "." s).

Fixpoint lt (a b : list N) : bool :=
  match a, b with
  | [], [] => false
  | [], y :: b' => if (0 <? y)%N then true else lt [] b'
  | x :: a', [] => false
  | x :: a', y :: b' =>
      if (x <? y)%N then true
      else if (y <? x)%N then false
      else lt a' b'
  end.

Fixpoint join (sep : string) (l : list string) : string :=
  match l with
  | [] => ""
  | [x] => x
  | x :: l' => x +:+ sep +:+ join sep l'
  end.

Definition str (v : list N) : string := join "." (pretty <$> v).

#[export] Instance lib : PackagingVersion := {|
  version := list N;
  parse_version := parse;
  version_lt := lt;
  version_str := str;
  invalid_version_msg := fun s => "Invalid version: '" +:+ s +:+ "'"
|}.

End ReleaseVersion.

(** ** Runtimes for the worked examples *)

Module Examples.

Definition numpy_old : ModuleType := Module_ "numpy" (Some "1.0.0").
Definition numpy_new : ModuleType := Module_ "numpy" (Some "1.26.4").
Definition numpy_dev : ModuleType := Module_ "numpy" (Some "unknown").
Definition toolz : ModuleType := Module_ "toolz" None.
Definition psycopg2 : ModuleType :=
  Module_ "psycopg2" (Some "2.9.3 (dt dec pq3 ext lo64)").

Definition not_found (name : string) : import_result :=
  ImportRaises (Exn ModuleNotFoundError ("No module named '" +:+ name +:+ "'")).

(** A runtime where [numpy] (in the given build) and [toolz] are
    installed and nothing else is. *)
Definition with_numpy (numpy : ModuleType) : runtime :=
  Runtime (fun name => if String.eqb name "numpy" then Imported numpy
                       else if String.eqb name "toolz" then Imported toolz
                       else not_found name)
          (<["numpy" := numpy]> (<["toolz" := toolz]> ∅)).

Definition assertion_text : string :=
  "Invalid error handling strategy specified.".
Definition too_old_text : string :=
  "'numpy' version '1.0.0' is installed; Dask requires version '1.21.0' or newer.".

End Examples.

(** ** entry_points (lines 22-29)

    [importlib_metadata.entry_points] belongs to the host; the wrapper is
    given it as the computation it stands for. *)

Definition entry_points_deprecation : string :=
  "`dask._compatibility.entry_points` has been replaced by `importlib_metadata.entry_points` "
  +:+ "and will be removed in a future version. Please use `importlib_metadata.entry_points` instead.".

Definition entry_points {R : Type}
    (importlib_metadata_entry_points : option string -> M R)
    (group : option string) : M R :=
  warnings_warn entry_points_deprecation DeprecationWarning;;
  importlib_metadata_entry_points group.

(** ** PY_VERSION (line 15)

    [sys.version_info[:3]] is the triple of numbers [major], [minor] and
    [micro]; [str] of a non-negative integer is its decimal notation. *)

(** [sep.join(items)]. *)
Fixpoint str_join (sep : string) (items : list string) : string :=
  match items with
  | [] => ""
  | [x] => x
  | x :: items' => x +:+ sep +:+ str_join sep items'
  end.

Definition py_version_string (major minor micro : N) : string :=
  str_join "." (pretty <$> [major; minor; micro]).

Definition PY_VERSION `{PackagingVersion} (major minor micro : N) : M version :=
  Version (py_version_string major minor micro).

(** ** Vocabulary for traces and names *)

Definition is_warning (ev : event) : bool :=
  match ev with
  | EvWarn _ _ => true
  | _ => false
  end.

Definition without_warnings (tr : list event) : list event :=
  List.filter (fun ev => negb (is_warning ev)) tr.

(** The string holds no dot. *)
Fixpoint no_dot (s : string) : bool :=
  match s with
  | EmptyString => true
  | String c s' => negb (Ascii.eqb c ".") && no_dot s'
  end.

(** Every character is a decimal digit. *)
Fixpoint all_digits (s : string) : bool :=
  match s with
  | EmptyString => true
  | String c s' =>
      (Nat.leb 48 (nat_of_ascii c) && Nat.leb (nat_of_ascii c) 57) && all_digits s'
  end.

(** ** A second runtime for the worked examples *)

Module Site.

Definition pandas : ModuleType := Module_ "pandas" (Some "1.5.3").
Definition pandas_io : ModuleType := Module_ "pandas.io" None.
Definition psycopg2_blank : ModuleType := Module_ "psycopg2" (Some "  ").
Definition syntax_error : exn := Exn (OtherError "SyntaxError") "invalid syntax".

(** [pandas] 1.5.3 with its submodule [pandas.io], a [psycopg2] whose
    version string is blank, and a package [broken] whose import stops on
    a syntax error. *)
Definition rt : runtime :=
  Runtime (fun name =>
             if String.eqb name "pandas" then Imported pandas
             else if String.eqb name "pandas.io" then Imported pandas_io
             else if String.eqb name "psycopg2" then Imported psycopg2_blank
             else if String.eqb name "broken" then ImportRaises syntax_error
             else Examples.not_found name)
          (<["pandas" := pandas]> (<["pandas.io" := pandas_io]>
            (<["psycopg2" := psycopg2_blank]> ∅))).

End Site.

(** * Properties *)

(** ** Strings *)

Lemma append_nil_l (s : string) : "" +:+ s = s.
Proof. reflexivity. Qed.

Lemma append_cons (c : ascii) (s t : string) :
  String c s +:+ t = String c (s +:+ t).
Proof. reflexivity. Qed.

Lemma append_nil_r (s : string) : s +:+ "" = s.
Proof. induction s as [|c s IH]; [done |]. by rewrite append_cons, IH. Qed.

Lemma append_assoc (a b c : string) : (a +:+ b) +:+ c = a +:+ b +:+ c.
Proof.
  induction a as [|x a IH]; [done |].
  by rewrite !append_cons, IH.
Qed.

Lemma prefix_append (sub post : string) : String.prefix sub (sub +:+ post) = true.
Proof.
  induction sub as [|c sub IH]; simpl.
  - by destruct post.
  - destruct (ascii_dec c c); [exact IH | congruence].
Qed.

Lemma contains_prefix (s sub : string) :
  String.prefix sub s = true → PyStr.contains s sub = true.
Proof. destruct s; simpl; intros ->; done. Qed.

Lemma contains_append (pre sub post : string) :
  PyStr.contains (pre +:+ sub +:+ post) sub = true.
Proof.
  induction pre as [|c pre IH].
  - rewrite append_nil_l. apply contains_prefix, prefix_append.
  - rewrite append_cons. simpl. rewrite IH. apply orb_true_r.
Qed.

Lemma string_of_list_ascii_app (l1 l2 : list ascii) :
  string_of_list_ascii (l1 ++ l2) =
  string_of_list_ascii l1 +:+ string_of_list_ascii l2.
Proof.
  induction l1 as [|c l1 IH]; [done |].
  simpl. by rewrite IH, append_cons.
Qed.

Lemma token_cons (c : ascii) (cur : list ascii) :
  PyStr.token (c :: cur) = PyStr.token cur +:+ String c "".
Proof. unfold PyStr.token. simpl. by rewrite string_of_list_ascii_app. Qed.


Lemma split_on_from_cons (sep : ascii) (s : string) (cur : list ascii) :
  ∃ x l, PyStr.split_on_from sep cur s = x :: l.
Proof.
  revert cur. induction s as [|c s IH]; intros cur; simpl.
  - eauto.
  - destruct (Ascii.eqb c sep); eauto.
Qed.

Lemma getitem_split_on (name : string) :
  getitem (PyStr.split_on "." name) 0 = mret (top_level name).
Proof.
  unfold top_level, getitem, PyStr.split_on.
  destruct (split_on_from_cons "." name []) as (x & l & ->). done.
Qed.


(** A token under construction is completed by the characters up to the
    next whitespace. *)
Lemma split_ws_from_token (s : string) (cur : list ascii) t rest :
  cur ≠ [] →
  PyStr.split_ws_from cur s = t :: rest →
  ∃ w post, s = w +:+ post ∧ t = PyStr.token cur +:+ w ∧
            PyStr.no_space w = true ∧ PyStr.ends_token post = true.
Proof.
  revert cur. induction s as [|c s IH]; intros cur Hcur; simpl.
  - destruct cur as [|x cur]; [done |]. intros [= <- _].
    exists "", "". by rewrite !append_nil_r.
  - destruct (PyStr.isspace c) eqn:Hc.
    + destruct cur as [|x cur]; [done |]. intros [= <- _].
      exists "", (String c s). simpl. by rewrite Hc, !append_nil_r.
    + intros Hs. destruct (IH (c :: cur) ltac:(done) Hs) as (w & post & -> & -> & Hw & Hpost).
      exists (String c w), post. simpl. rewrite Hc, Hw.
      repeat split; [|done]. by rewrite token_cons, append_assoc.
Qed.

(** The first token of [s.split()]: whitespace, then the token, which is
    non-empty and free of whitespace, then the end of the string or a
    whitespace character. *)
Lemma split_ws_first (s t : string) (rest : list string) :
  PyStr.split_ws s = t :: rest →
  ∃ pre post, s = pre +:+ t +:+ post ∧
              PyStr.all_space pre = true ∧ PyStr.no_space t = true ∧
              t ≠ "" ∧ PyStr.ends_token post = true.
Proof.
  unfold PyStr.split_ws. induction s as [|c s IH]; simpl; [done |].
  destruct (PyStr.isspace c) eqn:Hc; simpl.
  - intros Hs. destruct (IH Hs) as (pre & post & -> & Hpre & Ht & Hne & Hpost).
    exists (String c pre), post. simpl. by rewrite Hc, Hpre.
  - intros Hs.
    destruct (split_ws_from_token s [c] t rest ltac:(done) Hs)
      as (w & post & -> & -> & Hw & Hpost).
    exists "", post. change (PyStr.token [c]) with (String c "").
    rewrite !append_cons, !append_nil_l. simpl. by rewrite Hc, Hw.
Qed.

(** ** The policy set *)

Lemma elem_of_policies (errors : string) :
  errors ∈ policies ↔ errors = "warn" ∨ errors = "raise" ∨ errors = "ignore".
Proof.
  unfold policies. rewrite !elem_of_union, !elem_of_singleton. tauto.
Qed.

(** ** Platform flags *)

(** C9: whatever [sys.platform] is, at most one of the four flags is set,
    and exactly one is set precisely when the identifier is one of the four
    recognised strings. *)
Theorem platform_flags_exclusive (platform : string) :
  (flags_set platform ≤ 1)%nat ∧
  (flags_set platform = 1 ↔ platform ∈ recognized_platforms).
Proof.
  unfold flags_set, platform_flags, recognized_platforms,
    EMSCRIPTEN, LINUX, MACOS, WINDOWS.
  destruct (String.eqb_spec platform "emscripten") as [->|H1];
    [vm_compute; split; [lia | split; [intros _; set_solver | done]] |].
  destruct (String.eqb_spec platform "linux") as [->|H2];
    [vm_compute; split; [lia | split; [intros _; set_solver | done]] |].
  destruct (String.eqb_spec platform "darwin") as [->|H3];
    [vm_compute; split; [lia | split; [intros _; set_solver | done]] |].
  destruct (String.eqb_spec platform "win32") as [->|H4];
    [vm_compute; split; [lia | split; [intros _; set_solver | done]] |].
  simpl. split; [lia |]. split; [done |].
  intros Hin. exfalso.
  repeat (apply elem_of_cons in Hin as [?|Hin]; [congruence |]).
  by apply elem_of_nil in Hin.
Qed.

(** ** Running the guard *)

Section Guard.

Context `{PackagingVersion}.

Implicit Types (rt : runtime) (name extra errors parent : string).
Implicit Types (min_version : option string) (m : ModuleType).

(** The assertion is the first thing a call does. *)
Lemma run_assert_fails rt name extra min_version errors :
  errors ∉ policies →
  import_optional_dependency rt name extra min_version errors =
    ([], Raised (Exn AssertionError "Invalid error handling strategy specified.")).
Proof.
  intros Hno. unfold import_optional_dependency.
  rewrite bool_decide_eq_false_2 by done. reflexivity.
Qed.

(** The import raised an [ImportError]. *)
Lemma run_import_failed rt name extra min_version errors err :
  errors ∈ policies →
  import_module rt name = ImportRaises err →
  is_ImportError err = true →
  import_optional_dependency rt name extra min_version errors =
    if String.eqb errors "raise"
    then ([EvImport name],
          Raised (Exn ImportError
                    (missing_msg (dict_get INSTALL_MAPPING name name) extra)))
    else ([EvImport name], Returned None).
Proof.
  intros Hin Himp Hcls. unfold import_optional_dependency.
  rewrite bool_decide_eq_true_2 by done.
  unfold importlib_import_module. rewrite Himp.
  cbn. rewrite Hcls. by destruct (String.eqb errors "raise").
Qed.

(** The import raised something else, which propagates. *)
Lemma run_import_crashed rt name extra min_version errors err :
  errors ∈ policies →
  import_module rt name = ImportRaises err →
  is_ImportError err = false →
  import_optional_dependency rt name extra min_version errors =
    ([EvImport name], Raised err).
Proof.
  intros Hin Himp Hcls. unfold import_optional_dependency.
  rewrite bool_decide_eq_true_2 by done.
  unfold importlib_import_module. rewrite Himp.
  cbn. by rewrite Hcls.
Qed.

(** The import succeeded: the rest of the call is decided by the
    minimum that applies. *)
Lemma run_imported rt name extra min_version errors m :
  errors ∈ policies →
  import_module rt name = Imported m →
  import_optional_dependency rt name extra min_version errors =
    (tell (EvImport name);;
     match minimum_version name min_version with
     | Some mv =>
         if PyStr.truthy mv
         then enforce_minimum errors (top_level name) m
                              (module_to_check rt name m) mv
         else mret (Some m)
     | None => mret (Some m)
     end).
Proof.
  intros Hin Himp. unfold import_optional_dependency.
  rewrite bool_decide_eq_true_2 by done.
  unfold importlib_import_module. rewrite Himp, getitem_split_on.
  unfold minimum_version, module_to_check. cbn.
  destruct (PyStr.or_ min_version (VERSIONS !! top_level name)) as [mv|]; [|done].
  destruct (PyStr.truthy mv); [|done].
  by destruct (enforce_minimum _ _ _ _ _) as [tr [a|e]].
Qed.

(** [get_version] reads the attribute once and does nothing else. *)
Lemma get_version_run (module : ModuleType) :
  get_version module =
    ([EvGetattrVersion (__name__ module)],
     match __version__ module with
     | None => Raised (Exn ImportError (undetermined_msg (__name__ module)))
     | Some v =>
         if PyStr.truthy v then
           if String.eqb (__name__ module) "psycopg2" then
             match PyStr.split_ws v !! 0 with
             | Some t => Returned t
             | None => Raised (Exn IndexError "list index out of range")
             end
           else Returned v
         else Raised (Exn ImportError (undetermined_msg (__name__ module)))
     end).
Proof.
  unfold get_version. destruct (__version__ module) as [v|]; [|done].
  destruct (PyStr.truthy v); [|done]. cbn.
  destruct (String.eqb (__name__ module) "psycopg2"); [|done].
  unfold getitem. by destruct (PyStr.split_ws v !! 0).
Qed.

Lemma get_version_trace (module : ModuleType) :
  trace (get_version module) = [EvGetattrVersion (__name__ module)].
Proof. by rewrite get_version_run. Qed.

(** No exception of [get_version] is an [InvalidVersion]. *)
Lemma get_version_not_InvalidVersion (module : ModuleType) (e : exn) :
  result (get_version module) = Raised e → is_InvalidVersion e = false.
Proof.
  rewrite get_version_run. cbn.
  destruct (__version__ module) as [v|]; [|by intros [= <-]].
  destruct (PyStr.truthy v); [|by intros [= <-]].
  destruct (String.eqb _ _); [|done].
  destruct (PyStr.split_ws v !! 0); [done | by intros [= <-]].
Qed.

(** The path [enforce_minimum] takes, case by case. *)
Lemma enforce_minimum_run errors parent m (mtc : ModuleType) (mv : string) :
  enforce_minimum errors parent m mtc mv =
    let read := EvGetattrVersion (__name__ mtc) in
    match result (get_version mtc) with
    | Raised e => ([read], Raised e)
    | Returned s =>
        match parse_version s with
        | None => ([read], Raised (Exn ImportError (invalid_msg parent)))
        | Some iv =>
            match parse_version mv with
            | None => ([read], Raised (Exn InvalidVersion (invalid_version_msg mv)))
            | Some rv =>
                if version_lt iv rv then
                  if String.eqb errors "warn" then
                    ([read; EvWarn UserWarning (version_msg parent iv rv)],
                     Returned None)
                  else if String.eqb errors "raise" then
                    ([read], Raised (Exn ImportError (version_msg parent iv rv)))
                  else ([read], Returned None)
                else ([read], Returned (Some m))
            end
        end
    end.
Proof.
  unfold enforce_minimum.
  pose proof (get_version_trace mtc) as Htr.
  pose proof (get_version_not_InvalidVersion mtc) as Hexn.
  destruct (get_version mtc) as [tr [s|e]]; cbn in *; subst tr.
  - unfold Version. destruct (parse_version s) as [iv|]; cbn; [|done].
    destruct (parse_version mv) as [rv|]; cbn; [|done].
    destruct (version_lt iv rv); [|done].
    destruct (String.eqb errors "warn"); [done |].
    by destruct (String.eqb errors "raise").
  - by rewrite (Hexn e eq_refl).
Qed.

(** Every entry of the requirement table is a non-empty string, so a
    minimum that applies is always truthy. *)
Lemma VERSIONS_truthy (key v : string) :
  VERSIONS !! key = Some v → PyStr.truthy v = true.
Proof.
  unfold VERSIONS. intros Hk.
  repeat (apply lookup_insert_Some in Hk as [[_ <-]|[_ Hk]]; [done |]).
  by rewrite lookup_empty in Hk.
Qed.

Lemma minimum_version_truthy name min_version (mv : string) :
  minimum_version name min_version = Some mv → PyStr.truthy mv = true.
Proof.
  unfold minimum_version, PyStr.or_.
  destruct min_version as [a|]; simpl.
  - destruct (PyStr.truthy a) eqn:Ha.
    + by intros [= <-].
    + apply VERSIONS_truthy.
  - apply VERSIONS_truthy.
Qed.

(** ** The policy assertion *)

(** C6: with [errors] outside raise, warn and ignore the call stops at
    the assertion, before the import is attempted and with nothing done
    to the runtime (the trace is empty); with [errors] inside the set the
    assertion passes and the call goes on to attempt the import. *)
Theorem policy_assertion rt name extra min_version errors :
  let run := import_optional_dependency rt name extra min_version errors in
  (errors ≠ "raise" → errors ≠ "warn" → errors ≠ "ignore" →
     run = ([], Raised (Exn AssertionError
                          "Invalid error handling strategy specified."))) ∧
  (errors = "raise" ∨ errors = "warn" ∨ errors = "ignore" →
     ∃ rest, trace run = EvImport name :: rest).
Proof.
  split.
  - intros Hr Hw Hi. apply run_assert_fails.
    rewrite elem_of_policies. tauto.
  - intros Hin. assert (errors ∈ policies) as Hpol
      by (rewrite elem_of_policies; tauto).
    destruct (import_module rt name) as [m|err] eqn:Himp.
    + rewrite (run_imported _ _ _ _ _ m) by done.
      destruct (match minimum_version name min_version with
                | Some mv => _ | None => _ end) as [tr r].
      cbn. by destruct r; eauto.
    + destruct (is_ImportError err) eqn:Hcls.
      * rewrite (run_import_failed _ _ _ _ _ err) by done.
        destruct (String.eqb errors "raise"); eauto.
      * rewrite (run_import_crashed _ _ _ _ _ err) by done. eauto.
Qed.

(** ** A failed import *)

(** C4, as amended: when the import of [name] raises an [ImportError]
    (the exception line 94 catches, [ModuleNotFoundError] included),
    [errors = raise] gives an [ImportError] whose message is the
    missing-dependency text built from the mapped package name and
    [extra], both of which it contains; [errors = warn] and
    [errors = ignore] give [None], with no exception and no warning (the
    import is the only entry of the trace). *)
Theorem missing_dependency rt name extra min_version errors err :
  import_module rt name = ImportRaises err →
  is_ImportError err = true →
  let run := import_optional_dependency rt name extra min_version errors in
  let package_name := dict_get INSTALL_MAPPING name name in
  let msg := missing_msg package_name extra in
  (errors = "raise" →
     run = ([EvImport name], Raised (Exn ImportError msg)) ∧
     PyStr.contains msg package_name = true ∧
     PyStr.contains msg extra = true) ∧
  (errors = "warn" ∨ errors = "ignore" →
     run = ([EvImport name], Returned None)).
Proof.
  intros Himp Hcls run package_name msg. split.
  - intros ->. split; [|split].
    + subst run.
      by rewrite (run_import_failed _ _ _ _ _ err)
        by (done || (rewrite elem_of_policies; tauto)).
    + apply (contains_append "Missing optional dependency '").
    + subst msg. unfold missing_msg.
      rewrite <- (append_assoc _ package_name), <- (append_assoc _ "'. ").
      apply contains_append.
  - intros Hpol. subst run.
    rewrite (run_import_failed _ _ _ _ _ err)
      by (done || (rewrite elem_of_policies; tauto)).
    by destruct Hpol as [-> | ->].
Qed.



(** ** The result of a call *)

(** C1: a call returns a module only when the import gave that module
    and either no minimum applies or the version read from the checked
    module parses to a version that is not below the parsed minimum;
    it returns [None] only under [errors = warn] or [errors = ignore];
    every other call raises. *)
Theorem result_guarantee rt name extra min_version errors :
  match result (import_optional_dependency rt name extra min_version errors) with
  | Returned (Some m) =>
      import_module rt name = Imported m ∧
      (PyStr.truthy_opt (minimum_version name min_version) = false ∨
       ∃ mv s iv rv,
         minimum_version name min_version = Some mv ∧
         result (get_version (module_to_check rt name m)) = Returned s ∧
         parse_version s = Some iv ∧
         parse_version mv = Some rv ∧
         version_lt iv rv = false)
  | Returned None => errors = "warn" ∨ errors = "ignore"
  | Raised _ => True
  end.
Proof.
  destruct (decide (errors ∈ policies)) as [Hpol|Hpol];
    [|by rewrite run_assert_fails].
  destruct (import_module rt name) as [m|err] eqn:Himp.
  - rewrite (run_imported _ _ _ _ _ m) by done.
    destruct (minimum_version name min_version) as [mv|] eqn:Hmin;
      [|cbn; auto].
    destruct (PyStr.truthy mv) eqn:Hmv; [|cbn; rewrite Hmv; auto].
    rewrite enforce_minimum_run.
    destruct (result (get_version _)) as [s|e] eqn:Hs; [|done].
    destruct (parse_version s) as [iv|] eqn:Hiv; [|done].
    destruct (parse_version mv) as [rv|] eqn:Hrv; [|done].
    destruct (version_lt iv rv) eqn:Hlt.
    + destruct (String.eqb_spec errors "warn") as [->|Hw]; [cbn; auto |].
      destruct (String.eqb_spec errors "raise") as [->|Hr]; [done |].
      cbn. apply elem_of_policies in Hpol. tauto.
    + cbn. split; [done |]. right. by exists mv, s, iv, rv.
  - destruct (is_ImportError err) eqn:Hcls.
    + rewrite (run_import_failed _ _ _ _ _ err) by done.
      destruct (String.eqb_spec errors "raise") as [->|Hr]; [done |].
      cbn. apply elem_of_policies in Hpol. tauto.
    + by rewrite (run_import_crashed _ _ _ _ _ err).
Qed.

(** ** An installed version below the minimum *)

Lemma version_msg_mentions parent (iv rv : version) :
  PyStr.contains (version_msg parent iv rv) (version_str iv) = true ∧
  PyStr.contains (version_msg parent iv rv) (version_str rv) = true.
Proof.
  unfold version_msg. split.
  - rewrite <- (append_assoc _ parent), <- (append_assoc _ "' version '").
    apply contains_append.
  - rewrite <- (append_assoc _ parent), <- (append_assoc _ "' version '"),
      <- (append_assoc _ (version_str iv)), <- (append_assoc _ "' is installed; Dask requires version '").
    apply contains_append.
Qed.

(** C2: the import succeeded, a minimum applies, and the version read
    from the checked module parses to a version strictly below the parsed
    minimum. Then [errors = warn] emits exactly one [UserWarning], whose
    text contains both versions, and returns [None]; [errors = raise]
    raises an [ImportError] with that text; [errors = ignore] returns
    [None] with no warning and no exception. *)
Theorem version_too_old rt name extra min_version errors m
    (mv s : string) (iv rv : version) :
  import_module rt name = Imported m →
  minimum_version name min_version = Some mv →
  result (get_version (module_to_check rt name m)) = Returned s →
  parse_version s = Some iv →
  parse_version mv = Some rv →
  version_lt iv rv = true →
  let run := import_optional_dependency rt name extra min_version errors in
  let read := EvGetattrVersion (__name__ (module_to_check rt name m)) in
  let text := version_msg (top_level name) iv rv in
  (errors = "warn" →
     run = ([EvImport name; read; EvWarn UserWarning text], Returned None)) ∧
  (errors = "raise" →
     run = ([EvImport name; read], Raised (Exn ImportError text))) ∧
  (errors = "ignore" →
     run = ([EvImport name; read], Returned None)) ∧
  PyStr.contains text (version_str iv) = true ∧
  PyStr.contains text (version_str rv) = true.
Proof.
  intros Himp Hmin Hs Hiv Hrv Hlt run read text.
  assert (∀ e, e ∈ policies → import_optional_dependency rt name extra min_version e =
    (tell (EvImport name);;
     if String.eqb e "warn" then
       ([read; EvWarn UserWarning text], Returned None)
     else if String.eqb e "raise" then
       ([read], Raised (Exn ImportError text))
     else ([read], Returned None))) as Hrun.
  { intros e He. rewrite (run_imported _ _ _ _ _ m) by done.
    rewrite Hmin, (minimum_version_truthy _ _ _ Hmin).
    by rewrite enforce_minimum_run, Hs, Hiv, Hrv, Hlt. }
  repeat split.
  - intros ->. subst run. rewrite Hrun; [done |].
    rewrite elem_of_policies. tauto.
  - intros ->. subst run. rewrite Hrun; [done |].
    rewrite elem_of_policies. tauto.
  - intros ->. subst run. rewrite Hrun; [done |].
    rewrite elem_of_policies. tauto.
  - apply version_msg_mentions.
  - apply version_msg_mentions.
Qed.

(** ** An installed version that does not parse *)

(** C3: the import succeeded, a minimum applies, and the version string
    read from the checked module does not parse. Then the call raises the
    invalid-version [ImportError], whose text contains the top-level
    package name, under each of the three policies; nothing is returned
    and no warning is emitted. *)
Theorem invalid_version_raises rt name extra min_version errors m (mv s : string) :
  errors = "raise" ∨ errors = "warn" ∨ errors = "ignore" →
  import_module rt name = Imported m →
  minimum_version name min_version = Some mv →
  result (get_version (module_to_check rt name m)) = Returned s →
  parse_version s = None →
  import_optional_dependency rt name extra min_version errors =
    ([EvImport name; EvGetattrVersion (__name__ (module_to_check rt name m))],
     Raised (Exn ImportError (invalid_msg (top_level name)))) ∧
  PyStr.contains (invalid_msg (top_level name)) (top_level name) = true.
Proof.
  intros Hpol Himp Hmin Hs Hparse. split.
  - rewrite (run_imported _ _ _ _ _ m)
      by (done || (rewrite elem_of_policies; tauto)).
    rewrite Hmin, (minimum_version_truthy _ _ _ Hmin).
    by rewrite enforce_minimum_run, Hs, Hparse.
  - apply (contains_append "Invalid version for the module '").
Qed.

(** ** No minimum, no version check *)

(** C7: when the import succeeded, [min_version] is absent and the
    top-level name has no entry in the requirement table, the call
    returns the imported module and the import is all it did: the
    [__version__] attribute of no module is read. Conversely, in any
    call, a read of [__version__], and so the undeterminable-version
    error, occurs only when a minimum applies. *)
Theorem version_read_only_with_minimum rt name extra min_version errors :
  let run := import_optional_dependency rt name extra min_version errors in
  (∀ m,
     errors = "raise" ∨ errors = "warn" ∨ errors = "ignore" →
     import_module rt name = Imported m →
     min_version = None →
     VERSIONS !! top_level name = None →
     run = ([EvImport name], Returned (Some m))) ∧
  (∀ module_name,
     EvGetattrVersion module_name ∈ trace run →
     PyStr.truthy_opt (minimum_version name min_version) = true) ∧
  (∀ module_name,
     result run = Raised (Exn ImportError (undetermined_msg module_name)) →
     PyStr.truthy_opt (minimum_version name min_version) = true).
Proof.
  intros run. split; [|split].
  - intros m Hpol Himp -> Htab. subst run.
    rewrite (run_imported _ _ _ _ _ m)
      by (done || (rewrite elem_of_policies; tauto)).
    unfold minimum_version, PyStr.or_. simpl. by rewrite Htab.
  - intros n. subst run.
    destruct (decide (errors ∈ policies)) as [Hpol|Hpol];
      [|rewrite run_assert_fails by done; cbn; by intros ?%elem_of_nil].
    destruct (import_module rt name) as [m|err] eqn:Himp.
    + rewrite (run_imported _ _ _ _ _ m) by done.
      destruct (minimum_version name min_version) as [mv|] eqn:Hmin.
      * intros _. simpl. by apply (minimum_version_truthy name min_version).
      * cbn. rewrite list_elem_of_singleton. done.
    + destruct (is_ImportError err) eqn:Hcls.
      * rewrite (run_import_failed _ _ _ _ _ err) by done.
        destruct (String.eqb errors "raise"); cbn;
          rewrite list_elem_of_singleton; done.
      * rewrite (run_import_crashed _ _ _ _ _ err) by done.
        cbn. rewrite list_elem_of_singleton. done.
  - intros n. subst run.
    destruct (decide (errors ∈ policies)) as [Hpol|Hpol];
      [|by rewrite run_assert_fails].
    destruct (import_module rt name) as [m|err] eqn:Himp.
    + rewrite (run_imported _ _ _ _ _ m) by done.
      destruct (minimum_version name min_version) as [mv|] eqn:Hmin.
      * intros _. simpl. by apply (minimum_version_truthy name min_version).
      * done.
    + destruct (is_ImportError err) eqn:Hcls.
      * rewrite (run_import_failed _ _ _ _ _ err) by done.
        destruct (String.eqb errors "raise"); [|done].
        cbn. intros Heq. vm_compute in Heq. discriminate Heq.
      * rewrite (run_import_crashed _ _ _ _ _ err) by done.
        cbn. intros [= ->]. done.
Qed.

(** ** Where the minimum comes from *)

(** C5, as amended: a [min_version] that is supplied and not the empty
    string is the minimum the call enforces, whatever the requirement
    table holds for the package; with [min_version] absent or empty the
    minimum is the table's entry for the top-level name; with neither,
    the call returns the imported module and the import is all it did. *)
Theorem minimum_version_source rt name extra min_version errors m :
  errors = "raise" ∨ errors = "warn" ∨ errors = "ignore" →
  import_module rt name = Imported m →
  let run := import_optional_dependency rt name extra min_version errors in
  let enforce mv :=
    tell (EvImport name);;
    enforce_minimum errors (top_level name) m (module_to_check rt name m) mv in
  (∀ mv, min_version = Some mv → mv ≠ "" → run = enforce mv) ∧
  (∀ tv, min_version = None ∨ min_version = Some "" →
         VERSIONS !! top_level name = Some tv → run = enforce tv) ∧
  (min_version = None ∨ min_version = Some "" →
   VERSIONS !! top_level name = None →
   run = ([EvImport name], Returned (Some m))).
Proof.
  intros Hpol Himp run enforce. subst run enforce.
  rewrite (run_imported _ _ _ _ _ m)
    by (done || (rewrite elem_of_policies; tauto)).
  unfold minimum_version, PyStr.or_. split; [|split].
  - intros mv -> Hne. destruct mv as [|c mv]; done.
  - intros tv Hmin Htab.
    destruct Hmin as [-> | ->]; simpl;
      by rewrite Htab, (VERSIONS_truthy _ _ Htab).
  - intros Hmin Htab. destruct Hmin as [-> | ->]; simpl; by rewrite Htab.
Qed.

End Guard.

(** ** get_version *)

(** C8: for the module named [psycopg2] with version string
    ["2.9.3 (dt dec pq3 ext lo64)"], [get_version] returns ["2.9.3"].
    For a module of that name the result is the first token of the
    version string: what stands between the leading whitespace and the next
    whitespace character or the end. For a module of any other name the
    version string is returned as it is. *)
Theorem psycopg2_first_token :
  get_version (Module_ "psycopg2" (Some "2.9.3 (dt dec pq3 ext lo64)")) =
    ([EvGetattrVersion "psycopg2"], Returned "2.9.3") ∧
  (∀ (module : ModuleType) (v t : string) (rest : list string),
     __name__ module = "psycopg2" →
     __version__ module = Some v →
     PyStr.split_ws v = t :: rest →
     result (get_version module) = Returned t ∧
     ∃ pre post, v = pre +:+ t +:+ post ∧
                 PyStr.all_space pre = true ∧ PyStr.no_space t = true ∧
                 t ≠ "" ∧ PyStr.ends_token post = true) ∧
  (∀ (module : ModuleType) (v : string),
     __name__ module ≠ "psycopg2" →
     __version__ module = Some v →
     v ≠ "" →
     result (get_version module) = Returned v).
Proof.
  split; [reflexivity |]. split.
  - intros module v t rest Hname Hv Hsplit.
    split; [|by apply (split_ws_first v t rest)].
    rewrite get_version_run, Hname, Hv, Hsplit. cbn.
    destruct v as [|c v]; [done |]. done.
  - intros module v Hname Hv Hne.
    rewrite get_version_run, Hv. cbn.
    destruct v as [|c v]; [done |]. simpl.
    by destruct (String.eqb_spec (__name__ module) "psycopg2").
Qed.

(** * Worked examples

    Each statement runs the guard in one of the runtimes of [Examples],
    with [ReleaseVersion] as the version library. *)

Section WorkedExamples.

Import Examples.
Existing Instance ReleaseVersion.lib.

Lemma policy_assertion_witness :
  import_optional_dependency (with_numpy numpy_new) "numpy" "" None "strict" =
    ([], Raised (Exn AssertionError assertion_text)) ∧
  ∃ rest, trace (import_optional_dependency (with_numpy numpy_new)
                   "numpy" "" None "warn") = EvImport "numpy" :: rest.
Proof.
  split.
  - by apply (policy_assertion (with_numpy numpy_new) "numpy" "" None "strict").
  - apply (policy_assertion (with_numpy numpy_new) "numpy" "" None "warn").
    by right; left.
Defined.

Lemma missing_dependency_witness :
  import_module (with_numpy numpy_new) "sqlalchemy" = not_found "sqlalchemy" ∧
  import_optional_dependency (with_numpy numpy_new)
      "sqlalchemy" "It is needed for SQL." None "raise" =
    ([EvImport "sqlalchemy"],
     Raised (Exn ImportError
       "Missing optional dependency 'SQLAlchemy'. It is needed for SQL. Use pip or conda to install SQLAlchemy.")) ∧
  import_optional_dependency (with_numpy numpy_new)
      "sqlalchemy" "It is needed for SQL." None "ignore" =
    ([EvImport "sqlalchemy"], Returned None).
Proof.
  split; [reflexivity |]. split.
  - apply (missing_dependency (with_numpy numpy_new) "sqlalchemy"
             "It is needed for SQL." None "raise"
             (Exn ModuleNotFoundError "No module named 'sqlalchemy'"));
      reflexivity.
  - apply (missing_dependency (with_numpy numpy_new) "sqlalchemy"
             "It is needed for SQL." None "ignore"
             (Exn ModuleNotFoundError "No module named 'sqlalchemy'"));
      [reflexivity | reflexivity | by right].
Defined.


Lemma version_too_old_witness :
  minimum_version "numpy" None = Some "1.21.0" ∧
  get_version numpy_old = ([EvGetattrVersion "numpy"], Returned "1.0.0") ∧
  import_optional_dependency (with_numpy numpy_old) "numpy" "" None "warn" =
    ([EvImport "numpy"; EvGetattrVersion "numpy"; EvWarn UserWarning too_old_text],
     Returned None) ∧
  import_optional_dependency (with_numpy numpy_old) "numpy" "" None "raise" =
    ([EvImport "numpy"; EvGetattrVersion "numpy"],
     Raised (Exn ImportError too_old_text)) ∧
  import_optional_dependency (with_numpy numpy_old) "numpy" "" None "ignore" =
    ([EvImport "numpy"; EvGetattrVersion "numpy"], Returned None).
Proof.
  split; [reflexivity |]. split; [reflexivity |].
  assert (
    import_module (with_numpy numpy_old) "numpy" = Imported numpy_old ∧
    minimum_version "numpy" None = Some "1.21.0" ∧
    result (get_version (module_to_check (with_numpy numpy_old) "numpy" numpy_old))
      = Returned "1.0.0" ∧
    parse_version "1.0.0" = Some [1; 0; 0]%N ∧
    parse_version "1.21.0" = Some [1; 21; 0]%N ∧
    version_lt [1; 0; 0]%N [1; 21; 0]%N = true) as Hyp
    by (repeat split; reflexivity).
  destruct Hyp as (H1 & H2 & H3 & H4 & H5 & H6).
  split; [|split].
  - by apply (version_too_old (with_numpy numpy_old) "numpy" "" None "warn"
                numpy_old "1.21.0" "1.0.0" _ _ H1 H2 H3 H4 H5 H6).
  - by apply (version_too_old (with_numpy numpy_old) "numpy" "" None "raise"
                numpy_old "1.21.0" "1.0.0" _ _ H1 H2 H3 H4 H5 H6).
  - by apply (version_too_old (with_numpy numpy_old) "numpy" "" None "ignore"
                numpy_old "1.21.0" "1.0.0" _ _ H1 H2 H3 H4 H5 H6).
Defined.

Lemma invalid_version_raises_witness :
  minimum_version "numpy" None = Some "1.21.0" ∧
  get_version numpy_dev = ([EvGetattrVersion "numpy"], Returned "unknown") ∧
  parse_version "unknown" = None ∧
  import_optional_dependency (with_numpy numpy_dev) "numpy" "" None "ignore" =
    ([EvImport "numpy"; EvGetattrVersion "numpy"],
     Raised (Exn ImportError "Invalid version for the module 'numpy'.")).
Proof.
  split; [reflexivity |]. split; [reflexivity |]. split; [reflexivity |].
  apply (invalid_version_raises (with_numpy numpy_dev) "numpy" "" None
           "ignore" numpy_dev "1.21.0" "unknown");
    [by right; right | reflexivity ..].
Defined.

Lemma version_read_only_with_minimum_witness :
  __version__ toolz = None ∧
  VERSIONS !! top_level "toolz" = None ∧
  import_optional_dependency (with_numpy numpy_new) "toolz" "" None "raise" =
    ([EvImport "toolz"], Returned (Some toolz)) ∧
  PyStr.truthy_opt (minimum_version "toolz" (Some "0.8")) = true.
Proof.
  split; [reflexivity |]. split; [reflexivity |]. split.
  - destruct (version_read_only_with_minimum (with_numpy numpy_new) "toolz"
                "" None "raise") as (Hskip & _ & _).
    apply (Hskip toolz); [by left | reflexivity ..].
  - destruct (version_read_only_with_minimum (with_numpy numpy_new) "toolz"
                "" (Some "0.8") "raise") as (_ & _ & Hundetermined).
    apply (Hundetermined "toolz"). reflexivity.
Defined.

Lemma minimum_version_source_witness :
  VERSIONS !! top_level "numpy" = Some "1.21.0" ∧
  import_optional_dependency (with_numpy numpy_old) "numpy" "" (Some "0.9") "raise" =
    (tell (EvImport "numpy");;
     enforce_minimum "raise" "numpy" numpy_old numpy_old "0.9") ∧
  import_optional_dependency (with_numpy numpy_old) "numpy" "" (Some "0.9") "raise" =
    ([EvImport "numpy"; EvGetattrVersion "numpy"], Returned (Some numpy_old)) ∧
  import_optional_dependency (with_numpy numpy_old) "numpy" "" None "raise" =
    (tell (EvImport "numpy");;
     enforce_minimum "raise" "numpy" numpy_old numpy_old "1.21.0") ∧
  import_optional_dependency (with_numpy numpy_old) "toolz" "" None "raise" =
    ([EvImport "toolz"], Returned (Some toolz)).
Proof.
  split; [reflexivity |]. split; [|split; [reflexivity |split]].
  - destruct (minimum_version_source (with_numpy numpy_old) "numpy" ""
                (Some "0.9") "raise" numpy_old (or_introl eq_refl) eq_refl)
      as (Hexplicit & _ & _).
    exact (Hexplicit "0.9" eq_refl ltac:(discriminate)).
  - destruct (minimum_version_source (with_numpy numpy_old) "numpy" ""
                None "raise" numpy_old (or_introl eq_refl) eq_refl)
      as (_ & Htable & _).
    exact (Htable "1.21.0" (or_introl eq_refl) eq_refl).
  - destruct (minimum_version_source (with_numpy numpy_old) "toolz" ""
                None "raise" toolz (or_introl eq_refl) eq_refl)
      as (_ & _ & Hneither).
    exact (Hneither (or_introl eq_refl) eq_refl).
Defined.

(** The empty string is a [min_version] that was supplied, and the
    minimum enforced is the table's nevertheless. *)
Lemma empty_min_version_uses_table :
  minimum_version "numpy" (Some "") = Some "1.21.0" ∧
  minimum_version "numpy" (Some "") ≠ Some "" ∧
  import_optional_dependency (with_numpy numpy_old) "numpy" "" (Some "") "raise" =
    ([EvImport "numpy"; EvGetattrVersion "numpy"],
     Raised (Exn ImportError too_old_text)).
Proof. split; [reflexivity |]. split; [discriminate | reflexivity]. Qed.

Lemma psycopg2_first_token_witness :
  PyStr.split_ws "2.9.3 (dt dec pq3 ext lo64)" =
    ["2.9.3"; "(dt"; "dec"; "pq3"; "ext"; "lo64)"] ∧
  result (get_version psycopg2) = Returned "2.9.3" ∧
  result (get_version (Module_ "psycopg" (Some "3.1.8 (c ext)"))) =
    Returned "3.1.8 (c ext)".
Proof.
  split; [reflexivity |]. split.
  - destruct psycopg2_first_token as (_ & Htok & _).
    by apply (Htok psycopg2 "2.9.3 (dt dec pq3 ext lo64)" "2.9.3"
                ["(dt"; "dec"; "pq3"; "ext"; "lo64)"]).
  - destruct psycopg2_first_token as (_ & _ & Hother).
    by apply (Hother (Module_ "psycopg" (Some "3.1.8 (c ext)")) "3.1.8 (c ext)").
Defined.

End WorkedExamples.

(** * Further properties of the guard *)

Section GuardTree.

Context `{PackagingVersion}.

Implicit Types (rt : runtime) (name extra errors parent : string).
Implicit Types (min_version : option string) (m : ModuleType).

(** Every path through [import_optional_dependency], as one decision
    tree over the inputs and the runtime. *)
Lemma run_tree rt name extra min_version errors :
  import_optional_dependency rt name extra min_version errors =
    if bool_decide (errors ∈ policies) then
      match import_module rt name with
      | ImportRaises err =>
          if is_ImportError err then
            if String.eqb errors "raise"
            then ([EvImport name],
                  Raised (Exn ImportError
                            (missing_msg (dict_get INSTALL_MAPPING name name) extra)))
            else ([EvImport name], Returned None)
          else ([EvImport name], Raised err)
      | Imported m =>
          match minimum_version name min_version with
          | None => ([EvImport name], Returned (Some m))
          | Some mv =>
              let mtc := module_to_check rt name m in
              let read := EvGetattrVersion (__name__ mtc) in
              match result (get_version mtc) with
              | Raised e => ([EvImport name; read], Raised e)
              | Returned s =>
                  match parse_version s with
                  | None =>
                      ([EvImport name; read],
                       Raised (Exn ImportError (invalid_msg (top_level name))))
                  | Some iv =>
                      match parse_version mv with
                      | None =>
                          ([EvImport name; read],
                           Raised (Exn InvalidVersion (invalid_version_msg mv)))
                      | Some rv =>
                          if version_lt iv rv then
                            if String.eqb errors "warn" then
                              ([EvImport name; read;
                                EvWarn UserWarning
                                  (version_msg (top_level name) iv rv)],
                               Returned None)
                            else if String.eqb errors "raise" then
                              ([EvImport name; read],
                               Raised (Exn ImportError
                                         (version_msg (top_level name) iv rv)))
                            else ([EvImport name; read], Returned None)
                          else ([EvImport name; read], Returned (Some m))
                      end
                  end
              end
          end
      end
    else ([], Raised (Exn AssertionError
                        "Invalid error handling strategy specified.")).
Proof.
  destruct (decide (errors ∈ policies)) as [Hpol|Hpol].
  - rewrite (bool_decide_eq_true_2 _ Hpol).
    destruct (import_module rt name) as [m|err] eqn:Himp.
    + rewrite (run_imported _ _ _ _ _ m) by done.
      destruct (minimum_version name min_version) as [mv|] eqn:Hmin; [|done].
      rewrite (minimum_version_truthy _ _ _ Hmin), enforce_minimum_run.
      cbn zeta.
      destruct (result (get_version _)) as [s|e]; [|done].
      destruct (parse_version s) as [iv|]; [|done].
      destruct (parse_version mv) as [rv|]; [|done].
      destruct (version_lt iv rv); [|done].
      destruct (String.eqb errors "warn"); [done |].
      by destruct (String.eqb errors "raise").
    + destruct (is_ImportError err) eqn:Hcls.
      * by rewrite (run_import_failed _ _ _ _ _ err).
      * by rewrite (run_import_crashed _ _ _ _ _ err).
  - rewrite (bool_decide_eq_false_2 _ Hpol). by apply run_assert_fails.
Qed.

Lemma valid_policy errors :
  errors = "raise" ∨ errors = "warn" ∨ errors = "ignore" →
  bool_decide (errors ∈ policies) = true.
Proof.
  intros Hpol. apply bool_decide_eq_true_2, elem_of_policies. tauto.
Qed.

(** Case analysis along [run_tree], from the root to the leaves. *)
Ltac walk_tree :=
  repeat first
    [ progress cbn zeta
    | match goal with
      | |- context [bool_decide (?e ∈ policies)] =>
          destruct (bool_decide (e ∈ policies)) eqn:?
      | |- context [match import_module ?rt ?n with _ => _ end] =>
          destruct (import_module rt n) eqn:?
      | |- context [match minimum_version ?n ?mv with _ => _ end] =>
          destruct (minimum_version n mv) eqn:?
      | |- context [match result (get_version ?m) with _ => _ end] =>
          destruct (result (get_version m)) eqn:?
      | |- context [match parse_version ?s with _ => _ end] =>
          destruct (parse_version s) eqn:?
      | |- context [if version_lt ?a ?b then _ else _] =>
          destruct (version_lt a b) eqn:?
      | |- context [if is_ImportError ?e then _ else _] =>
          destruct (is_ImportError e) eqn:?
      | |- context [if String.eqb ?a ?b then _ else _] =>
          destruct (String.eqb a b) eqn:?
      end ].

Lemma get_version_falsy (module : ModuleType) :
  PyStr.truthy_opt (__version__ module) = false →
  result (get_version module) =
    Raised (Exn ImportError (undetermined_msg (__name__ module))).
Proof.
  rewrite get_version_run. cbn.
  destruct (__version__ module) as [v|]; [|done].
  simpl. by intros ->.
Qed.

(** ** The paths the policy does not gate *)

(** X1: an installed version that is not below the minimum gives the
    imported module back under each of the three policies, after the import
    and one read of the version and with no warning. *)
Theorem acceptable_version_returns_module rt name extra min_version errors m
    (mv s : string) (iv rv : version) :
  errors = "raise" ∨ errors = "warn" ∨ errors = "ignore" →
  import_module rt name = Imported m →
  minimum_version name min_version = Some mv →
  result (get_version (module_to_check rt name m)) = Returned s →
  parse_version s = Some iv →
  parse_version mv = Some rv →
  version_lt iv rv = false →
  import_optional_dependency rt name extra min_version errors =
    ([EvImport name; EvGetattrVersion (__name__ (module_to_check rt name m))],
     Returned (Some m)).
Proof.
  intros Hpol Himp Hmin Hs Hiv Hrv Hlt.
  rewrite run_tree, (valid_policy _ Hpol), Himp, Hmin. cbn zeta.
  by rewrite Hs, Hiv, Hrv, Hlt.
Qed.

(** X2: a minimum that does not parse, met by an installed version that
    does, raises [InvalidVersion] under each of the three policies: the
    exception is not an [ImportError] and [errors = ignore] does not turn
    it into [None]. *)
Theorem unparseable_minimum_raises rt name extra min_version errors m
    (mv s : string) (iv : version) :
  errors = "raise" ∨ errors = "warn" ∨ errors = "ignore" →
  import_module rt name = Imported m →
  minimum_version name min_version = Some mv →
  result (get_version (module_to_check rt name m)) = Returned s →
  parse_version s = Some iv →
  parse_version mv = None →
  import_optional_dependency rt name extra min_version errors =
    ([EvImport name; EvGetattrVersion (__name__ (module_to_check rt name m))],
     Raised (Exn InvalidVersion (invalid_version_msg mv))) ∧
  is_ImportError (Exn InvalidVersion (invalid_version_msg mv)) = false.
Proof.
  intros Hpol Himp Hmin Hs Hiv Hmv. split; [|done].
  rewrite run_tree, (valid_policy _ Hpol), Himp, Hmin. cbn zeta.
  by rewrite Hs, Hiv, Hmv.
Qed.

(** X3: when a minimum applies and the checked module has no
    [__version__], or an empty one, the call raises the
    undeterminable-version [ImportError], which names the checked module,
    under each of the three policies. *)
Theorem undeterminable_version_raises rt name extra min_version errors m
    (mv : string) :
  errors = "raise" ∨ errors = "warn" ∨ errors = "ignore" →
  import_module rt name = Imported m →
  minimum_version name min_version = Some mv →
  PyStr.truthy_opt (__version__ (module_to_check rt name m)) = false →
  let checked := module_to_check rt name m in
  import_optional_dependency rt name extra min_version errors =
    ([EvImport name; EvGetattrVersion (__name__ checked)],
     Raised (Exn ImportError (undetermined_msg (__name__ checked)))) ∧
  PyStr.contains (undetermined_msg (__name__ checked)) (__name__ checked) = true.
Proof.
  intros Hpol Himp Hmin Hver checked. split.
  - rewrite run_tree, (valid_policy _ Hpol), Himp, Hmin. cbn zeta.
    by rewrite (get_version_falsy _ Hver).
  - apply (contains_append "Cannot determine the version for the module '").
Qed.

(** X4: an exception of the import that is not an [ImportError] reaches
    the caller as it is under each of the three policies. Under
    [errors = warn] and [errors = ignore] it is the only way a call can
    raise with nothing but the import done. *)
Theorem foreign_exception_propagates rt name extra min_version errors (e : exn) :
  errors = "raise" ∨ errors = "warn" ∨ errors = "ignore" →
  let run := import_optional_dependency rt name extra min_version errors in
  (import_module rt name = ImportRaises e → is_ImportError e = false →
     run = ([EvImport name], Raised e)) ∧
  (errors ≠ "raise" → trace run = [EvImport name] → result run = Raised e →
     import_module rt name = ImportRaises e ∧ is_ImportError e = false).
Proof.
  intros Hpol run. subst run. rewrite run_tree, (valid_policy _ Hpol). split.
  - by intros -> ->.
  - intros Hnr. destruct (import_module rt name) as [m|err].
    + destruct (minimum_version name min_version) as [mv|]; [|done].
      cbn zeta. destruct (result (get_version _)) as [s|e']; [|done].
      destruct (parse_version s) as [iv|]; [|done].
      destruct (parse_version mv) as [rv|]; [|done].
      destruct (version_lt iv rv); [|done].
      destruct (String.eqb errors "warn"); [done |].
      by destruct (String.eqb errors "raise").
    + destruct (is_ImportError err) eqn:Hcls.
      * destruct (String.eqb_spec errors "raise"); done.
      * by intros _ [= ->].
Qed.

(** ** What the checked module is *)

(** X5: when [sys.modules] holds the top-level package, it is that
    package's version that is checked. Two runtimes that agree on
    [sys.modules] and differ in the module the import gives do the same
    things and end the same way, except that each returns its own
    module. *)
Theorem parent_version_decides rt1 rt2 name extra min_version errors m1 m2
    (package : ModuleType) :
  sys_modules rt1 = sys_modules rt2 →
  sys_modules rt1 !! top_level name = Some package →
  import_module rt1 name = Imported m1 →
  import_module rt2 name = Imported m2 →
  let run1 := import_optional_dependency rt1 name extra min_version errors in
  let run2 := import_optional_dependency rt2 name extra min_version errors in
  trace run2 = trace run1 ∧
  result run2 = match result run1 with
                | Returned (Some _) => Returned (Some m2)
                | r => r
                end.
Proof.
  intros Hsys Hpkg Himp1 Himp2 run1 run2. subst run1 run2.
  rewrite !run_tree, Himp1, Himp2. unfold module_to_check.
  rewrite <- Hsys, Hpkg. cbn [default from_option].
  walk_tree; done.
Qed.

(** ** Warnings and the shape of a run *)

(** X6: a warning in the trace of a call means that [errors] is warn, the
    import succeeded, the checked version is below the minimum, the
    warning is the [UserWarning] with the text for these two versions, and
    the call returns [None]. *)
Theorem warning_only_when_too_old rt name extra min_version errors
    (category : warning_category) (message : string) :
  let run := import_optional_dependency rt name extra min_version errors in
  EvWarn category message ∈ trace run →
  errors = "warn" ∧ category = UserWarning ∧ result run = Returned None ∧
  ∃ m mv s iv rv,
    import_module rt name = Imported m ∧
    minimum_version name min_version = Some mv ∧
    result (get_version (module_to_check rt name m)) = Returned s ∧
    parse_version s = Some iv ∧ parse_version mv = Some rv ∧
    version_lt iv rv = true ∧
    message = version_msg (top_level name) iv rv.
Proof.
  intros run. subst run. rewrite run_tree.
  walk_tree; cbn [trace fst result snd]; intros Hin;
    repeat (apply elem_of_cons in Hin as [Heq|Hin]; [try discriminate Heq |]);
    try (by apply elem_of_nil in Hin).
  injection Heq as -> ->.
  split; [by apply String.eqb_eq |]. split; [done |]. split; [done |].
  eauto 12.
Qed.

(** X7: a call attempts the import at most once and before anything else,
    reads a version attribute at most once and only after the import, and
    warns at most once and only after that read. The trace is empty exactly
    when [errors] is not one of the three policies. *)
Theorem trace_shape rt name extra min_version errors :
  let tr := trace (import_optional_dependency rt name extra min_version errors) in
  (tr = [] ∨ tr = [EvImport name] ∨
   (∃ n, tr = [EvImport name; EvGetattrVersion n]) ∨
   (∃ n text, tr = [EvImport name; EvGetattrVersion n; EvWarn UserWarning text])) ∧
  (tr = [] ↔ errors ∉ policies).
Proof.
  intros tr. subst tr. rewrite run_tree.
  destruct (decide (errors ∈ policies)) as [Hpol|Hpol].
  - rewrite (bool_decide_eq_true_2 _ Hpol).
    split; [|by walk_tree].
    walk_tree; cbn [trace fst]; eauto 6.
  - rewrite (bool_decide_eq_false_2 _ Hpol). split; [by left | done].
Qed.

(** ** What [extra] and the policy can change *)

(** X8: [extra] only enters the missing-dependency message: unless
    [errors] is raise and the import raises an [ImportError], two calls
    that differ in [extra] alone are the same. *)
Theorem extra_only_in_missing_message rt name extra1 extra2 min_version errors :
  (errors = "raise" →
   ∀ err, import_module rt name = ImportRaises err → is_ImportError err = false) →
  import_optional_dependency rt name extra1 min_version errors =
  import_optional_dependency rt name extra2 min_version errors.
Proof.
  intros Hsafe. rewrite !run_tree.
  destruct (bool_decide (errors ∈ policies)); [|done].
  destruct (import_module rt name) as [m|err] eqn:Himp; [done |].
  destruct (is_ImportError err) eqn:Hcls; [|done].
  destruct (String.eqb_spec errors "raise") as [Hr|Hr]; [|done].
  specialize (Hsafe Hr err eq_refl). congruence.
Qed.

(** X9: [errors = warn] behaves as [errors = ignore] with the warning
    added: the results are equal, and so are the traces once the warning
    is left out. *)
Theorem warn_is_ignore_with_warning rt name extra min_version :
  let warn := import_optional_dependency rt name extra min_version "warn" in
  let ignore := import_optional_dependency rt name extra min_version "ignore" in
  result warn = result ignore ∧
  without_warnings (trace warn) = trace ignore.
Proof.
  intros warn ignore. subst warn ignore. rewrite !run_tree.
  rewrite !valid_policy by tauto.
  change (String.eqb "warn" "warn") with true.
  change (String.eqb "warn" "raise") with false.
  change (String.eqb "ignore" "warn") with false.
  change (String.eqb "ignore" "raise") with false.
  walk_tree; done.
Qed.

(** X10: [errors = raise] and [errors = ignore] do the same things to the
    runtime and end the same way, except that where ignore returns [None]
    raise raises an [ImportError]. *)
Theorem raise_is_ignore_with_error rt name extra min_version :
  let strict := import_optional_dependency rt name extra min_version "raise" in
  let ignore := import_optional_dependency rt name extra min_version "ignore" in
  trace strict = trace ignore ∧
  match result ignore with
  | Returned None => ∃ text, result strict = Raised (Exn ImportError text)
  | r => result strict = r
  end.
Proof.
  intros strict ignore. subst strict ignore. rewrite !run_tree.
  rewrite !valid_policy by tauto.
  change (String.eqb "raise" "warn") with false.
  change (String.eqb "raise" "raise") with true.
  change (String.eqb "ignore" "warn") with false.
  change (String.eqb "ignore" "raise") with false.
  walk_tree; cbn [trace fst result snd]; eauto.
Qed.

(** X11: a module accepted under one policy is accepted under every
    policy, by the very same run. *)
Theorem accepted_under_every_policy rt name extra min_version errors1 errors2 m :
  errors1 = "raise" ∨ errors1 = "warn" ∨ errors1 = "ignore" →
  errors2 = "raise" ∨ errors2 = "warn" ∨ errors2 = "ignore" →
  result (import_optional_dependency rt name extra min_version errors1) =
    Returned (Some m) →
  import_optional_dependency rt name extra min_version errors2 =
  import_optional_dependency rt name extra min_version errors1.
Proof.
  intros Hpol1 Hpol2. rewrite !run_tree, !valid_policy by done.
  walk_tree; done.
Qed.

(** ** Which exceptions a call can raise *)

Lemma get_version_exception (module : ModuleType) (e : exn) :
  result (get_version module) = Raised e →
  exn_class e = ImportError ∨
  (exn_class e = IndexError ∧ __name__ module = "psycopg2").
Proof.
  rewrite get_version_run. cbn.
  destruct (__version__ module) as [v|]; [|intros [= <-]; by left].
  destruct (PyStr.truthy v); [|intros [= <-]; by left].
  destruct (String.eqb_spec (__name__ module) "psycopg2") as [Hn|Hn]; [|done].
  destruct (PyStr.split_ws v !! 0); [done |]. intros [= <-]. by right.
Qed.

(** X12: an exception that leaves a call is the [AssertionError] of an
    invalid policy, or an exception of the import itself that is not an
    [ImportError], or an [ImportError], or the [InvalidVersion] of a
    minimum that does not parse, or the [IndexError] that only a checked
    module named [psycopg2] can cause. *)
Theorem exception_taxonomy rt name extra min_version errors (e : exn) :
  result (import_optional_dependency rt name extra min_version errors) = Raised e →
  (exn_class e = AssertionError ∧ errors ∉ policies) ∨
  (import_module rt name = ImportRaises e ∧ is_ImportError e = false) ∨
  exn_class e = ImportError ∨
  (exn_class e = InvalidVersion ∧
   ∃ mv, minimum_version name min_version = Some mv ∧ parse_version mv = None) ∨
  (exn_class e = IndexError ∧
   ∃ m, import_module rt name = Imported m ∧
        __name__ (module_to_check rt name m) = "psycopg2").
Proof.
  rewrite run_tree.
  destruct (decide (errors ∈ policies)) as [Hpol|Hpol].
  - rewrite (bool_decide_eq_true_2 _ Hpol).
    walk_tree; cbn [result snd]; intros Heq; try discriminate Heq;
      injection Heq as <-; eauto 8.
    match goal with
    | Hv : result (get_version _) = Raised _ |- _ =>
        apply get_version_exception in Hv as [Hv|[Hv Hn]]; eauto 10
    end.
  - rewrite (bool_decide_eq_false_2 _ Hpol). intros [= <-]. by left.
Qed.

End GuardTree.

(** * Further properties of get_version *)

Lemma split_ws_from_pending (s : string) (cur : list ascii) :
  cur ≠ [] → PyStr.split_ws_from cur s ≠ [].
Proof.
  revert cur. induction s as [|c s IH]; intros cur Hcur; simpl.
  - by destruct cur.
  - destruct (PyStr.isspace c); [by destruct cur | by apply IH].
Qed.

(** [s.split()] is empty exactly for a string of whitespace. *)
Lemma split_ws_nil_iff (s : string) :
  PyStr.split_ws s = [] ↔ PyStr.all_space s = true.
Proof.
  unfold PyStr.split_ws. induction s as [|c s IH]; simpl; [done |].
  destruct (PyStr.isspace c); simpl; [exact IH |].
  split; [|done]. intros Hs. by apply split_ws_from_pending in Hs.
Qed.

Lemma split_ws_from_no_space (s : string) (cur : list ascii) :
  PyStr.no_space s = true → cur ≠ [] →
  PyStr.split_ws_from cur s = [PyStr.token cur +:+ s].
Proof.
  revert cur. induction s as [|c s IH]; intros cur Hs Hcur; simpl in *.
  - rewrite append_nil_r. by destruct cur.
  - apply andb_true_iff in Hs as [Hc Hs].
    apply negb_true_iff in Hc. rewrite Hc.
    rewrite IH by done. by rewrite token_cons, append_assoc.
Qed.

(** A non-empty string free of whitespace is its own single token. *)
Lemma split_ws_token (t : string) :
  PyStr.no_space t = true → t ≠ "" → PyStr.split_ws t = [t].
Proof.
  destruct t as [|c t]; [done |]. simpl. intros Ht _.
  apply andb_true_iff in Ht as [Hc Ht]. apply negb_true_iff in Hc.
  unfold PyStr.split_ws. simpl. rewrite Hc.
  by rewrite split_ws_from_no_space.
Qed.

Lemma truthy_nonempty (s : string) : PyStr.truthy s = true ↔ s ≠ "".
Proof. by destruct s. Qed.

Lemma get_version_returned_inv (module : ModuleType) (s : string) :
  result (get_version module) = Returned s →
  s ≠ "" ∧ (__name__ module = "psycopg2" → PyStr.no_space s = true).
Proof.
  rewrite get_version_run. cbn.
  destruct (__version__ module) as [v|]; [|done].
  destruct (PyStr.truthy v) eqn:Hv; [|done].
  destruct (String.eqb_spec (__name__ module) "psycopg2") as [Hn|Hn].
  - destruct (PyStr.split_ws v) as [|t rest] eqn:Hsplit; [done |].
    intros [= ->].
    by destruct (split_ws_first _ _ _ Hsplit) as (_ & _ & _ & _ & Hs & Hne & _).
  - intros [= ->]. split; [by apply truthy_nonempty | done].
Qed.

(** X13: a version that [get_version] returns is never the empty string
    and is a piece of the module's [__version__]: the attribute itself for
    every module but [psycopg2], a whitespace-free piece of it for
    [psycopg2]. *)
Theorem get_version_returns_piece (module : ModuleType) (s : string) :
  result (get_version module) = Returned s →
  s ≠ "" ∧
  ∃ v pre post,
    __version__ module = Some v ∧ v = pre +:+ s +:+ post ∧
    (__name__ module ≠ "psycopg2" → s = v) ∧
    (__name__ module = "psycopg2" → PyStr.no_space s = true).
Proof.
  rewrite get_version_run. cbn.
  destruct (__version__ module) as [v|]; [|done].
  destruct (PyStr.truthy v) eqn:Hv; [|done].
  destruct (String.eqb_spec (__name__ module) "psycopg2") as [Hn|Hn].
  - destruct (PyStr.split_ws v) as [|t rest] eqn:Hsplit; [done |].
    intros [= ->].
    destruct (split_ws_first _ _ _ Hsplit) as (pre & post & -> & _ & Hs & Hne & _).
    split; [done |]. exists (pre +:+ s +:+ post), pre, post. by eauto.
  - intros [= ->]. split; [by apply truthy_nonempty |].
    exists s, "", "". rewrite append_nil_l, append_nil_r. done.
Qed.

(** X14: [get_version] raises in two cases only. It raises the
    undeterminable-version [ImportError] exactly when [__version__] is
    absent or empty, and an [IndexError] exactly when the module is
    [psycopg2] and its version string is whitespace and nothing else. *)
Theorem get_version_raises_iff (module : ModuleType) (e : exn) :
  result (get_version module) = Raised e ↔
  (PyStr.truthy_opt (__version__ module) = false ∧
   e = Exn ImportError (undetermined_msg (__name__ module))) ∨
  (∃ v, __name__ module = "psycopg2" ∧ __version__ module = Some v ∧
        v ≠ "" ∧ PyStr.all_space v = true ∧
        e = Exn IndexError "list index out of range").
Proof.
  rewrite get_version_run. cbn.
  destruct (__version__ module) as [v|]; simpl.
  - destruct (PyStr.truthy v) eqn:Hv.
    + destruct (String.eqb_spec (__name__ module) "psycopg2") as [Hn|Hn].
      * destruct (PyStr.split_ws v) as [|t rest] eqn:Hsplit; simpl.
        -- apply split_ws_nil_iff in Hsplit. split.
           ++ intros [= <-]. right. exists v.
              by rewrite <- truthy_nonempty.
           ++ intros [[? _]|(v' & _ & _ & _ & _ & ->)]; done.
        -- split; [done |].
           intros [[? _]|(v' & _ & [= <-] & _ & Hall & _)]; [done |].
           apply split_ws_nil_iff in Hall. congruence.
      * split; [done |]. intros [[? _]|(v' & ? & _)]; done.
    + split.
      * intros [= <-]. by left.
      * intros [[_ ->]|(v' & _ & [= <-] & Hne & _)]; [done |].
        apply truthy_nonempty in Hne. congruence.
  - split.
    + intros [= <-]. by left.
    + intros [[_ ->]|(v' & _ & ? & _)]; done.
Qed.

(** X15: the truncation is stable: a version that [get_version] returned,
    put back as the [__version__] of a module of the same name, is returned
    unchanged. *)
Theorem get_version_stable (module : ModuleType) (s : string) :
  result (get_version module) = Returned s →
  result (get_version (Module_ (__name__ module) (Some s))) = Returned s.
Proof.
  intros Hs.
  destruct (get_version_returned_inv module s Hs) as (Hne & Hpsy).
  rewrite get_version_run. cbn.
  apply truthy_nonempty in Hne as Htruthy. rewrite Htruthy.
  destruct (String.eqb_spec (__name__ module) "psycopg2") as [Hn|Hn]; [|done].
  by rewrite (split_ws_token s (Hpsy Hn) Hne).
Qed.

(** * Edge cases of the guard *)

(** The first segment of a dotted name whose head holds no dot. *)
Lemma split_on_from_head (head : string) (cur : list ascii) (rest : string) :
  no_dot head = true →
  PyStr.split_on_from "." cur head = [PyStr.token cur +:+ head] ∧
  PyStr.split_on_from "." cur (head +:+ "." +:+ rest) =
    (PyStr.token cur +:+ head) :: PyStr.split_on_from "." [] rest.
Proof.
  revert cur. induction head as [|c head IH]; intros cur Hhead.
  - rewrite append_nil_l, append_nil_r. by split.
  - simpl in Hhead. apply andb_true_iff in Hhead as [Hc Hhead].
    apply negb_true_iff in Hc.
    rewrite append_cons. simpl. rewrite Hc.
    destruct (IH (c :: cur) Hhead) as [-> ->].
    by rewrite token_cons, append_assoc.
Qed.

Section GuardEdges.

Context `{PackagingVersion}.

Implicit Types (rt : runtime) (name extra errors : string).
Implicit Types (min_version : option string) (m : ModuleType).

(** X16: a checked module named [psycopg2] whose version string is
    whitespace and nothing else makes the call raise [IndexError] when a
    minimum applies, under each of the three policies. *)
Theorem blank_psycopg2_version_raises rt name extra min_version errors m
    (mv v : string) :
  errors = "raise" ∨ errors = "warn" ∨ errors = "ignore" →
  import_module rt name = Imported m →
  minimum_version name min_version = Some mv →
  __name__ (module_to_check rt name m) = "psycopg2" →
  __version__ (module_to_check rt name m) = Some v →
  v ≠ "" →
  PyStr.all_space v = true →
  import_optional_dependency rt name extra min_version errors =
    ([EvImport name; EvGetattrVersion "psycopg2"],
     Raised (Exn IndexError "list index out of range")).
Proof.
  intros Hpol Himp Hmin Hname Hver Hne Hblank.
  rewrite run_tree, (valid_policy _ Hpol), Himp, Hmin. cbn zeta.
  rewrite get_version_run, Hname, Hver. cbn.
  apply truthy_nonempty in Hne as ->.
  apply split_ws_nil_iff in Hblank as ->. done.
Qed.


End GuardEdges.

(** * entry_points *)

(** X18: [entry_points] emits the deprecation warning, once and before
    anything the underlying query does, and then is that query: same
    events, same result, same exception. *)
Theorem entry_points_passes_through {R : Type}
    (query : option string → M R) (group : option string) :
  trace (entry_points query group) =
    EvWarn DeprecationWarning entry_points_deprecation :: trace (query group) ∧
  result (entry_points query group) = result (query group).
Proof.
  unfold entry_points, warnings_warn, tell. cbn.
  by destruct (query group) as [tr [r|e]].
Qed.

(** * PY_VERSION *)

Lemma all_digits_append (a b : string) :
  all_digits (a +:+ b) = all_digits a && all_digits b.
Proof.
  induction a as [|c a IH]; [done |].
  rewrite append_cons. simpl. rewrite IH. by rewrite andb_assoc.
Qed.

Lemma all_digits_no_dot (s : string) : all_digits s = true → no_dot s = true.
Proof.
  induction s as [|c s IH]; [done |]. simpl.
  intros [Hc Hs]%andb_true_iff. rewrite (IH Hs), andb_true_r.
  destruct (Ascii.eqb_spec c ".") as [->|]; [discriminate Hc | done].
Qed.

Lemma pretty_N_char_digit (x : N) :
  all_digits (String (pretty_N_char x) "") = true.
Proof.
  unfold pretty_N_char. by repeat case_match.
Qed.

(** The digits [pretty_N_go] puts in front of its accumulator. *)
Lemma pretty_N_go_digits (x : N) (s : string) :
  ∃ pre, pretty_N_go x s = pre +:+ s ∧ all_digits pre = true.
Proof.
  revert s. induction (N.lt_wf_0 x) as [x _ IH]; intros s.
  destruct (decide (x = 0)%N) as [->|Hx].
  - exists "". by rewrite pretty_N_go_0.
  - rewrite pretty_N_go_step by lia.
    destruct (IH (x `div` 10)%N ltac:(apply N.div_lt; lia)
                (String (pretty_N_char (x `mod` 10)) s)) as (pre & -> & Hpre).
    exists (pre +:+ String (pretty_N_char (x `mod` 10)) "").
    rewrite append_assoc. split; [done |].
    by rewrite all_digits_append, Hpre, pretty_N_char_digit.
Qed.

Lemma pretty_N_decimal (n : N) :
  all_digits (pretty n) = true ∧ pretty n ≠ "".
Proof.
  unfold pretty, pretty_N. destruct (decide (n = 0)%N) as [->|Hn]; [done |].
  rewrite pretty_N_go_step by lia.
  destruct (pretty_N_go_digits (n `div` 10)
              (String (pretty_N_char (n `mod` 10)) "")) as (pre & -> & Hpre).
  split.
  - by rewrite all_digits_append, Hpre, pretty_N_char_digit.
  - by destruct pre.
Qed.

(** X19: the string line 15 hands to [Version] has exactly three fields
    between dots, the decimal notations of [major], [minor] and [micro] in
    this order, each of them non-empty and made of digits only. *)
Theorem py_version_string_fields (major minor micro : N) :
  PyStr.split_on "." (py_version_string major minor micro) =
    [pretty major; pretty minor; pretty micro] ∧
  Forall (fun field => all_digits field = true ∧ field ≠ "")
         (PyStr.split_on "." (py_version_string major minor micro)).
Proof.
  assert (PyStr.split_on "." (py_version_string major minor micro) =
            [pretty major; pretty minor; pretty micro]) as Hfields.
  { unfold py_version_string, PyStr.split_on. cbn [fmap list_fmap str_join].
    destruct (pretty_N_decimal major) as [Ha _].
    destruct (pretty_N_decimal minor) as [Hb _].
    destruct (pretty_N_decimal micro) as [Hc _].
    apply all_digits_no_dot in Ha, Hb, Hc.
    destruct (split_on_from_head (pretty major) []
                (pretty minor +:+ "." +:+ pretty micro) Ha) as [_ ->].
    destruct (split_on_from_head (pretty minor) [] (pretty micro) Hb) as [_ ->].
    destruct (split_on_from_head (pretty micro) [] "" Hc) as [-> _].
    done. }
  split; [done |]. rewrite Hfields.
  repeat constructor; apply pretty_N_decimal.
Qed.

(** * Further worked examples *)

Section FurtherExamples.

Import Examples.
Existing Instance ReleaseVersion.lib.

Lemma acceptable_version_returns_module_witness :
  parse_version "1.26.4" = Some [1; 26; 4]%N ∧
  version_lt [1; 26; 4]%N [1; 21; 0]%N = false ∧
  import_optional_dependency (with_numpy numpy_new) "numpy" "" None "ignore" =
    ([EvImport "numpy"; EvGetattrVersion "numpy"], Returned (Some numpy_new)).
Proof.
  split; [reflexivity |]. split; [reflexivity |].
  exact (acceptable_version_returns_module (with_numpy numpy_new) "numpy" ""
           None "ignore" numpy_new "1.21.0" "1.26.4" [1; 26; 4]%N [1; 21; 0]%N
           (or_intror (or_intror eq_refl)) eq_refl eq_refl eq_refl eq_refl
           eq_refl eq_refl).
Defined.

Lemma unparseable_minimum_raises_witness :
  parse_version "latest" = None ∧
  import_optional_dependency (with_numpy numpy_new) "numpy" ""
      (Some "latest") "ignore" =
    ([EvImport "numpy"; EvGetattrVersion "numpy"],
     Raised (Exn InvalidVersion "Invalid version: 'latest'")).
Proof.
  split; [reflexivity |].
  exact (proj1 (unparseable_minimum_raises (with_numpy numpy_new) "numpy" ""
                  (Some "latest") "ignore" numpy_new "latest" "1.26.4"
                  [1; 26; 4]%N (or_intror (or_intror eq_refl))
                  eq_refl eq_refl eq_refl eq_refl eq_refl)).
Defined.

Lemma undeterminable_version_raises_witness :
  __version__ toolz = None ∧
  import_optional_dependency (with_numpy numpy_new) "toolz" ""
      (Some "0.8") "warn" =
    ([EvImport "toolz"; EvGetattrVersion "toolz"],
     Raised (Exn ImportError "Cannot determine the version for the module 'toolz'.")).
Proof.
  split; [reflexivity |].
  exact (proj1 (undeterminable_version_raises (with_numpy numpy_new) "toolz" ""
                  (Some "0.8") "warn" toolz "0.8"
                  (or_intror (or_introl eq_refl)) eq_refl eq_refl eq_refl)).
Defined.

Lemma foreign_exception_propagates_witness :
  import_module Site.rt "broken" = ImportRaises Site.syntax_error ∧
  is_ImportError Site.syntax_error = false ∧
  import_optional_dependency Site.rt "broken" "" None "ignore" =
    ([EvImport "broken"], Raised Site.syntax_error).
Proof.
  split; [reflexivity |]. split; [reflexivity |].
  exact (proj1 (foreign_exception_propagates Site.rt "broken" "" None "ignore"
                  Site.syntax_error (or_intror (or_intror eq_refl)))
               eq_refl eq_refl).
Defined.

Lemma parent_version_decides_witness :
  sys_modules Site.rt !! top_level "pandas.io" = Some Site.pandas ∧
  import_optional_dependency Site.rt "pandas.io" "" (Some "1.0") "raise" =
    ([EvImport "pandas.io"; EvGetattrVersion "pandas"],
     Returned (Some Site.pandas_io)) ∧
  result (import_optional_dependency
            (Runtime (fun _ => Imported toolz) (sys_modules Site.rt))
            "pandas.io" "" (Some "1.0") "raise") =
    Returned (Some toolz).
Proof.
  split; [reflexivity |]. split; [reflexivity |].
  exact (proj2 (parent_version_decides Site.rt
                  (Runtime (fun _ => Imported toolz) (sys_modules Site.rt))
                  "pandas.io" "" (Some "1.0") "raise" Site.pandas_io toolz
                  Site.pandas eq_refl eq_refl eq_refl eq_refl)).
Defined.

Lemma warning_only_when_too_old_witness :
  trace (import_optional_dependency (with_numpy numpy_old) "numpy" "" None "warn")
    !! 2%nat = Some (EvWarn UserWarning too_old_text) ∧
  result (import_optional_dependency (with_numpy numpy_old) "numpy" "" None "warn") =
    Returned None.
Proof.
  split; [reflexivity |].
  apply (warning_only_when_too_old (with_numpy numpy_old) "numpy" "" None "warn"
           UserWarning too_old_text).
  by apply (list_elem_of_lookup_2 _ 2%nat).
Defined.

Lemma extra_only_in_missing_message_witness :
  import_optional_dependency (with_numpy numpy_new) "bokeh" "Needed for plots." None "ignore" =
  import_optional_dependency (with_numpy numpy_new) "bokeh" "" None "ignore".
Proof.
  apply (extra_only_in_missing_message (with_numpy numpy_new) "bokeh"
           "Needed for plots." "" None "ignore").
  discriminate.
Defined.

Lemma accepted_under_every_policy_witness :
  result (import_optional_dependency (with_numpy numpy_new) "numpy" "" None "raise") =
    Returned (Some numpy_new) ∧
  import_optional_dependency (with_numpy numpy_new) "numpy" "" None "warn" =
  import_optional_dependency (with_numpy numpy_new) "numpy" "" None "raise".
Proof.
  split; [reflexivity |].
  exact (accepted_under_every_policy (with_numpy numpy_new) "numpy" "" None
           "raise" "warn" numpy_new (or_introl eq_refl)
           (or_intror (or_introl eq_refl)) eq_refl).
Defined.

Lemma exception_taxonomy_witness :
  result (import_optional_dependency Site.rt "psycopg2" "" (Some "2.9") "ignore") =
    Raised (Exn IndexError "list index out of range") ∧
  ((exn_class (Exn IndexError "list index out of range") = AssertionError ∧
    "ignore" ∉ policies) ∨
   (import_module Site.rt "psycopg2" =
      ImportRaises (Exn IndexError "list index out of range") ∧
    is_ImportError (Exn IndexError "list index out of range") = false) ∨
   exn_class (Exn IndexError "list index out of range") = ImportError ∨
   (exn_class (Exn IndexError "list index out of range") = InvalidVersion ∧
    ∃ mv, minimum_version "psycopg2" (Some "2.9") = Some mv ∧
          parse_version mv = None) ∨
   (exn_class (Exn IndexError "list index out of range") = IndexError ∧
    ∃ m, import_module Site.rt "psycopg2" = Imported m ∧
         __name__ (module_to_check Site.rt "psycopg2" m) = "psycopg2")).
Proof.
  split; [reflexivity |].
  exact (exception_taxonomy Site.rt "psycopg2" "" (Some "2.9") "ignore"
           (Exn IndexError "list index out of range") eq_refl).
Defined.

Lemma get_version_returns_piece_witness :
  result (get_version psycopg2) = Returned "2.9.3" ∧
  ∃ v pre post,
    __version__ psycopg2 = Some v ∧ v = pre +:+ "2.9.3" +:+ post ∧
    (__name__ psycopg2 ≠ "psycopg2" → "2.9.3" = v) ∧
    (__name__ psycopg2 = "psycopg2" → PyStr.no_space "2.9.3" = true).
Proof.
  split; [reflexivity |].
  exact (proj2 (get_version_returns_piece psycopg2 "2.9.3" eq_refl)).
Defined.

Lemma get_version_stable_witness :
  result (get_version psycopg2) = Returned "2.9.3" ∧
  result (get_version (Module_ "psycopg2" (Some "2.9.3"))) = Returned "2.9.3".
Proof.
  split; [reflexivity |].
  exact (get_version_stable psycopg2 "2.9.3" eq_refl).
Defined.

Lemma blank_psycopg2_version_raises_witness :
  __version__ Site.psycopg2_blank = Some "  " ∧
  PyStr.all_space "  " = true ∧
  import_optional_dependency Site.rt "psycopg2" "" (Some "2.9") "ignore" =
    ([EvImport "psycopg2"; EvGetattrVersion "psycopg2"],
     Raised (Exn IndexError "list index out of range")).
Proof.
  split; [reflexivity |]. split; [reflexivity |].
  exact (blank_psycopg2_version_raises Site.rt "psycopg2" "" (Some "2.9")
           "ignore" Site.psycopg2_blank "2.9" "  "
           (or_intror (or_intror eq_refl)) eq_refl eq_refl eq_refl eq_refl
           ltac:(discriminate) eq_refl).
Defined.


(** C4, as first stated, fails for an import that fails with something
    other than an [ImportError]: the import of [broken] stops on a
    [SyntaxError], which is not caught, so under [errors = ignore] and
    [errors = warn] the call raises it instead of returning [None]. *)
Lemma failed_import_raises_under_ignore :
  import_module Site.rt "broken" = ImportRaises Site.syntax_error ∧
  import_optional_dependency Site.rt "broken" "" None "ignore" =
    ([EvImport "broken"], Raised Site.syntax_error) ∧
  import_optional_dependency Site.rt "broken" "" None "warn" =
    ([EvImport "broken"], Raised Site.syntax_error) ∧
  result (import_optional_dependency Site.rt "broken" "" None "ignore") ≠
    Returned None ∧
  result (import_optional_dependency Site.rt "broken" "" None "warn") ≠
    Returned None.
Proof.
  split; [reflexivity |]. split; [reflexivity |]. split; [reflexivity |].
  split; discriminate.
Qed.

End FurtherExamples.
